(** * parsons.ngpvan.codes: the [Codes] client of the NGPVAN '/codes' end points

    A shallow embedding of [src/parsons/ngpvan/codes.py].  Every method of the
    class [Codes] is a computation in a small state-and-exception monad.  The
    state holds the attribute dictionary of [self], the state of the outside
    world that the connection collaborator acts on, the trace of calls made
    on the collaborator and the records handed to the module logger.

    Python dictionaries are [gmap string _]; Python values that travel in
    query parameters and JSON bodies are the inductive [value]. *)

From stdpp Require Import gmap strings list fin_maps pretty.
From Stdlib Require Import ZArith.

Set Warnings "-register-all,-clear-no-such-hyp".

Open Scope Z_scope.

(** ** Python values *)

Module Py.

Inductive value : Type :=
| VNone
| VBool (b : bool)
| VInt (z : Z)
| VStr (s : string)
| VList (l : list value)
| VDict (d : gmap string value).

(** Exceptions that can travel out of a method: the ones the interpreter
    raises inside the module, and whatever the collaborator raises. *)
Inductive exn : Type :=
| UnboundLocalError (var : string)
| KeyError (key : string)
| TypeError
| AttributeError (attr : string)
| HTTPError (status : Z) (reason : string)
| JSONDecodeError
| ConnectionFailure (msg : string).

Definition result (A : Type) : Type := exn + A.

(** [bool(v)]: what [if v:] tests. *)
Definition truthy (v : value) : bool :=
  match v with
  | VNone => false
  | VBool b => b
  | VInt z => negb (z =? 0)
  | VStr s => negb (Nat.eqb (String.length s) 0)
  | VList l => negb (Nat.eqb (length l) 0)
  | VDict d => negb (Nat.eqb (size d) 0)
  end.

(** [s[key]] for a string key. *)
Definition subscript (s : value) (key : string) : result value :=
  match s with
  | VDict d =>
      match d !! key with
      | Some v => inr v
      | None => inl (KeyError key)
      end
  | _ => inl TypeError
  end.

Fixpoint chars (s : string) : list value :=
  match s with
  | EmptyString => []
  | String a s' => VStr (String a EmptyString) :: chars s'
  end.

(** [iter(v)] run to the end, for the values that [value] has: a list yields
    its elements, a string its characters (one per byte here), a dictionary
    its keys (in the map's order, not the insertion order); [None], a boolean
    and a number are not iterable.  Tuples, generators and other iterables
    of Python are not values of this model. *)
Definition py_iter (v : value) : result (list value) :=
  match v with
  | VList l => inr l
  | VStr s => inr (chars s)
  | VDict d => inr ((λ kv, VStr kv.1) <$> map_to_list d)
  | _ => inl TypeError
  end.

Definition rbind {A B} (m : result A) (k : A → result B) : result B :=
  match m with
  | inl e => inl e
  | inr a => k a
  end.

(** A list comprehension [[f s for s in l]]: left to right, stopping at the
    first exception. *)
Fixpoint comprehension {A B} (f : A → result B) (l : list A) : result (list B) :=
  match l with
  | [] => inr []
  | s :: l' =>
      rbind (f s) (λ o, rbind (comprehension f l') (λ os, inr (o :: os)))
  end.

End Py.
Import Py.

(** ** Objects that the collaborators hand back *)

(** What [connection.request] and [connection.request_paginate] return, and
    what [Table(...)] builds: decoded JSON, a table, or a raw HTTP response. *)
Inductive pyobj : Type :=
| OVal (v : value)
| OTable (header : list string) (rows : list (list value))
| OResponse (status : Z) (reason : string) (body : option value).

(** Modelled from the spec: [petl.fromcolumns] and the parsons [Table] are not
    part of the source file.  [fromcolumns cols header] views a sequence of
    columns as a table: the header row, then one row per position of the
    longest column, shorter columns padded with [None]. *)
Module petl.

Definition longest (cols : list (list value)) : nat :=
  foldr (λ c n, Nat.max (length c) n) 0%nat cols.

Definition zip_longest (missing : value) (cols : list (list value))
  : list (list value) :=
  (λ i, (λ c : list value, default missing (c !! i)) <$> cols)
    <$> seq 0 (longest cols).

Definition fromcolumns (cols : list value) (header : list string)
  : result (list string * list (list value)) :=
  rbind (comprehension py_iter cols) (λ cs, inr (header, zip_longest VNone cs)).

End petl.

(** Modelled from the spec: [Table(petl_table)] wraps the petl view. *)
Definition Table (t : list string * list (list value)) : pyobj :=
  OTable t.1 t.2.

(** [c.num_rows] *)
Definition num_rows (c : pyobj) : result Z :=
  match c with
  | OTable _ rows => inr (Z.of_nat (length rows))
  | _ => inl (AttributeError "num_rows")
  end.

(** [r.json()] *)
Definition json (r : pyobj) : result value :=
  match r with
  | OResponse _ _ (Some v) => inr v
  | OResponse _ _ None => inl JSONDecodeError
  | _ => inl (AttributeError "json")
  end.

(** ** The connection collaborator *)

(** One call on the connection, as the client writes it: the method, the
    positional [url], and the keyword arguments that are passed ([None] for a
    keyword that the call site does not mention). *)
Record call : Type := Call {
  c_method : string;
  c_url : string;
  c_req_type : option string;
  c_post_data : option (gmap string value);
  c_args : option (gmap string value);
  c_raw : option bool
}.

(** The collaborator: its base [uri] and how it answers a call, acting on the
    world [W] (the remote system, the HTTP session). *)
Record Connection (W : Type) : Type := {
  uri : string;
  answer : call → W → result pyobj * W
}.
Arguments uri {W} _.
Arguments answer {W} _ _ _.

(** ** Logging *)

Inductive fragment : Type :=
| FText (s : string)
| FInt (z : Z)
| FVal (v : value)
| FObj (o : pyobj).

(** A record given to the module-level [logger]; an f-string is kept as its
    fragments. *)
Inductive log_record : Type :=
| info (msg : list fragment)
| debug (o : pyobj).

(** ** The monad of a method body *)

Section Monad.
Context {W : Type}.

Record state : Type := State {
  st_self : gmap string (Connection W);
  st_world : W;
  st_sent : list call;
  st_log : list log_record
}.

Definition M (A : Type) : Type := state → result A * state.

Definition ret {A} (a : A) : M A := λ st, (inr a, st).

Definition raise {A} (e : exn) : M A := λ st, (inl e, st).

Definition bind {A B} (m : M A) (k : A → M B) : M B :=
  λ st, match m st with
        | (inl e, st') => (inl e, st')
        | (inr a, st') => k a st'
        end.

Definition lift {A} (r : result A) : M A :=
  match r with
  | inl e => raise e
  | inr a => ret a
  end.

(** [self.<attr> = c] *)
Definition setattr (attr : string) (c : Connection W) : M unit :=
  λ st, (inr tt, State (<[attr := c]> (st_self st)) (st_world st)
                       (st_sent st) (st_log st)).

(** [self.<attr>] *)
Definition getattr (attr : string) : M (Connection W) :=
  λ st, match st_self st !! attr with
        | Some c => (inr c, st)
        | None => (inl (AttributeError attr), st)
        end.

Definition logger (r : log_record) : M unit :=
  λ st, (inr tt, State (st_self st) (st_world st) (st_sent st)
                       (st_log st ++ [r])).

(** A call on the collaborator: recorded in the trace, then answered. *)
Definition invoke (conn : Connection W) (c : call) : M pyobj :=
  λ st, let '(r, w) := answer conn c (st_world st) in
        (r, State (st_self st) w (st_sent st ++ [c]) (st_log st)).

End Monad.
Arguments state : clear implicits.
Arguments M : clear implicits.

Declare Scope py_scope.
Delimit Scope py_scope with py.
Notation "'let*' x ':=' m 'in' k" := (bind m (λ x, k))
  (at level 10, x name, m at level 100, k at level 200) : py_scope.
Notation "m ;; k" := (bind m (λ _, k))
  (at level 100, right associativity) : py_scope.
Open Scope py_scope.

(** ** The class [Codes] *)

Module Codes.
Section Methods.
Context {W : Type}.

(** [def __init__(self, van_connection)] *)
Definition __init__ (van_connection : Connection W) : M W unit :=
  setattr "connection" van_connection.

(** A local variable that may not have been assigned on the path taken. *)
Definition local (var : string) (binding : option value) : result value :=
  match binding with
  | Some v => inr v
  | None => inl (UnboundLocalError var)
  end.

(** The dictionary display inside the comprehension of [create_code] and
    [update_code]; its three subscripts are evaluated in order. *)
Definition entity (s : value) : result value :=
  rbind (subscript s "name") (λ n,
  rbind (subscript s "is_searchable") (λ sr,
  rbind (subscript s "is_applicable") (λ ap,
  inr (VDict (<["name" := n]> (<["isSearchable" := sr]>
             (<["is_applicable" := ap]> ∅))))))).

(** [[{...} for s in supported_entities]] *)
Definition entities (supported_entities : value) : result value :=
  rbind (py_iter supported_entities) (λ l,
  rbind (comprehension entity l) (λ se, inr (VList se))).

(** [def get_codes(self, name=None, supported_entities=None,
                   parent_code_id=None, code_type=None, page_size=200)];
    an argument is [None] here when the caller leaves it out. *)
Definition get_codes (name supported_entities parent_code_id code_type
                      page_size : option value) : M W pyobj :=
  let name := default VNone name in
  let supported_entities := default VNone supported_entities in
  let parent_code_id := default VNone parent_code_id in
  let code_type := default VNone code_type in
  let page_size := default (VInt 200) page_size in
  let args : gmap string value :=
    <["$top" := page_size]> (<["codeType" := code_type]>
    (<["parentCodeId" := parent_code_id]>
    (<["supportedEntities" := supported_entities]>
    (<["name" := name]> ∅)))) in
  let* conn := getattr "connection" in
  let url := uri conn +:+ "codes" in
  logger (info [FText "Getting codes..."]) ;;
  let* conn := getattr "connection" in
  let* c := invoke conn (Call "request_paginate" url None None (Some args) None) in
  logger (debug c) ;;
  let* n := lift (num_rows c) in
  logger (info [FText "Found "; FInt n; FText " codes."]) ;;
  ret c.

(** [def get_code(self, code_id)] *)
Definition get_code (code_id : Z) : M W pyobj :=
  let* conn := getattr "connection" in
  let url := uri conn +:+ "codes/" +:+ pretty code_id in
  logger (info [FText "Getting code "; FInt code_id; FText "..."]) ;;
  let* conn := getattr "connection" in
  let* c := invoke conn (Call "request" url None None None None) in
  logger (debug c) ;;
  logger (info [FText "Found code "; FInt code_id; FText "."]) ;;
  ret c.

(** [def get_code_types(self)] *)
Definition get_code_types : M W pyobj :=
  let* conn := getattr "connection" in
  let url := uri conn +:+ "codeTypes" in
  logger (info [FText "Getting code types..."]) ;;
  let* conn := getattr "connection" in
  let* r := invoke conn (Call "request" url None None None (Some true)) in
  let* j := lift (json r) in
  let* t := lift (petl.fromcolumns [j] ["code_type"]) in
  let ct := Table t in
  logger (debug ct) ;;
  let* n := lift (num_rows ct) in
  logger (info [FText "Found "; FInt n; FText " code types."]) ;;
  ret ct.

(** [def create_code(self, name=None, parent_code_id=None, description=None,
                     code_type='SourceCode', supported_entities=None)] *)
Definition create_code (name parent_code_id description code_type
                        supported_entities : option value) : M W pyobj :=
  let name := default VNone name in
  let parent_code_id := default VNone parent_code_id in
  let description := default VNone description in
  let code_type := default (VStr "SourceCode") code_type in
  let supported_entities := default VNone supported_entities in
  let* conn := getattr "connection" in
  let url := uri conn +:+ "codes" in
  let* se := (if truthy supported_entities
              then let* se := lift (entities supported_entities) in ret (Some se)
              else ret None) in
  let* se_read := lift (local "se" se) in
  let post_data : gmap string value :=
    <["description" := description]> (<["supportedEntities" := se_read]>
    (<["codeType" := code_type]> (<["name" := name]>
    (<["parentCodeId" := parent_code_id]> ∅)))) in
  logger (info [FText "Creating code "; FVal name; FText "..."]) ;;
  let* conn := getattr "connection" in
  let* c := invoke conn (Call "request" url (Some "POST") (Some post_data) None None) in
  logger (debug c) ;;
  logger (info [FText "Code "; FObj c; FText " created"]) ;;
  ret c.

(** [def update_code(self, code_id, name=None, parent_code_id=None,
                     description=None, code_type=None,
                     supported_entities=None)] *)
Definition update_code (code_id : Z) (name parent_code_id description code_type
                        supported_entities : option value) : M W pyobj :=
  let name := default VNone name in
  let parent_code_id := default VNone parent_code_id in
  let description := default VNone description in
  let code_type := default VNone code_type in
  let supported_entities := default VNone supported_entities in
  let* conn := getattr "connection" in
  let url := uri conn +:+ "codes/" +:+ pretty code_id in
  let post_data : gmap string value := ∅ in
  let post_data :=
    if truthy name then <["name" := name]> post_data else post_data in
  let post_data :=
    if truthy parent_code_id
    then <["parentCodeId" := parent_code_id]> post_data else post_data in
  let post_data :=
    if truthy code_type
    then <["codeType" := code_type]> post_data else post_data in
  let post_data :=
    if truthy description
    then <["description" := description]> post_data else post_data in
  let* post_data :=
    (if truthy supported_entities
     then let* se := lift (entities supported_entities) in
          ret (<["supportedEntities" := se]> post_data)
     else ret post_data) in
  logger (info [FText "Updating code "; FInt code_id; FText "..."]) ;;
  let* conn := getattr "connection" in
  let* c := invoke conn (Call "request" url (Some "PUT") (Some post_data) None None) in
  logger (debug c) ;;
  logger (info [FText "Code "; FInt code_id; FText " updated."]) ;;
  ret c.

(** [def delete_code(self, code_id)] *)
Definition delete_code (code_id : Z) : M W pyobj :=
  let* conn := getattr "connection" in
  let url := uri conn +:+ "codes/" +:+ pretty code_id in
  logger (info [FText "Deleting code "; FInt code_id; FText "..."]) ;;
  let* conn := getattr "connection" in
  let* c := invoke conn (Call "request" url (Some "DELETE") None None (Some true)) in
  logger (info [FText "Code "; FInt code_id; FText " deleted."]) ;;
  ret c.

(** [def get_code_supported_entities(self)] *)
Definition get_code_supported_entities : M W pyobj :=
  let* conn := getattr "connection" in
  let url := uri conn +:+ "codes/supportedEntities" in
  logger (info [FText "Getting code supported entities..."]) ;;
  let* conn := getattr "connection" in
  let* r := invoke conn (Call "request" url None None None (Some true)) in
  let* j := lift (json r) in
  let* t := lift (petl.fromcolumns [j] ["supported_entities"]) in
  let cse := Table t in
  logger (debug cse) ;;
  let* n := lift (num_rows cse) in
  logger (info [FText "Found "; FInt n; FText " code supported entities."]) ;;
  ret cse.

End Methods.
End Codes.

(** ** A concrete collaborator, to run the methods on *)

Module Demo.

(** Answers every call with [reply] and counts the calls it has served. *)
Definition fixed (reply : result pyobj) : Connection nat :=
  {| uri := "https://api.securevan.com/v4/";
     answer := λ _ n, (reply, S n) |}.

(** A client whose [__init__] has run on [conn]; nothing sent or logged. *)
Definition fresh (conn : Connection nat) : state nat :=
  (Codes.__init__ conn (State ∅ 0%nat [] [])).2.

Definition no_content : pyobj := OResponse 204 "No Content" None.

Definition not_found : exn := HTTPError 404 "Not Found".

Definition event : gmap string value :=
  <["name" := VStr "Event"]> (<["is_searchable" := VBool true]>
  (<["is_applicable" := VBool true]> ∅)).

Definition locations : gmap string value :=
  <["name" := VStr "Locations"]>
  (<["start_time" := VStr "12-31-2018T13:00:00"]>
  (<["end_time" := VStr "12-31-2018T14:00:00"]> ∅)).

End Demo.

(** ** Vocabulary of the statements *)

(** The calls that [m] adds to the trace when run from [st]. *)
Definition sent_by {W A} (m : M W A) (st : state W) : list call :=
  drop (length (st_sent st)) (st_sent (m st).2).

(** [m] leaves the attributes of [self] as they were, whatever it returns
    or raises. *)
Definition frames_self {W A} (m : M W A) : Prop :=
  ∀ st, st_self (m st).2 = st_self st.

(** [o] is the element sent on the wire for the caller's element [s]: [s]
    is a dictionary with the keys [name], [is_searchable], [is_applicable],
    and [o] has their values under [name], [isSearchable], [is_applicable]
    and no other key. *)
Definition wire_entity (s o : value) : Prop :=
  ∃ (d : gmap string value) (n sr ap : value),
    s = VDict d ∧ d !! "name" = Some n ∧
    d !! "is_searchable" = Some sr ∧ d !! "is_applicable" = Some ap ∧
    o = VDict (<["name" := n]> (<["isSearchable" := sr]>
              (<["is_applicable" := ap]> ∅))).

(** [m] makes no call on the connection. *)
Definition silent {W A} (m : M W A) : Prop :=
  ∀ st, st_sent (m st).2 = st_sent st.

(** [m] keeps the trace it finds and adds at most one call to it. *)
Definition single_call {W A} (m : M W A) : Prop :=
  ∀ st, ∃ new, st_sent (m st).2 = st_sent st ++ new ∧ (length new ≤ 1)%nat.

(** * Properties *)

Import Codes.

(** ** Pure helpers: subscripts and comprehensions *)

Lemma rbind_inr {A B} (m : result A) (k : A → result B) b :
  rbind m k = inr b ↔ ∃ a, m = inr a ∧ k a = inr b.
Proof.
  destruct m as [e|a]; simpl; split.
  - discriminate.
  - intros (a & Ha & _). discriminate.
  - eauto.
  - intros (a' & Ha & Hk). by simplify_eq.
Qed.

Lemma comprehension_inr {A B} (f : A → result B) l out :
  comprehension f l = inr out ↔ Forall2 (λ s o, f s = inr o) l out.
Proof.
  revert out. induction l as [|s l IH]; intros out; simpl.
  - split.
    + intros [= <-]. constructor.
    + by inversion 1.
  - rewrite rbind_inr. split.
    + intros (o & Ho & Hrest). apply rbind_inr in Hrest as (os & Hos & [= <-]).
      constructor; [done|]. by apply IH.
    + inversion 1 as [|? o ? os Ho Hos]; subst. exists o. split; [done|].
      apply rbind_inr. exists os. split; [|done]. by apply IH.
Qed.

Lemma comprehension_inl {A B} (f : A → result B) l :
  Exists (λ s, ∃ e, f s = inl e) l →
  ∃ s e, s ∈ l ∧ f s = inl e ∧ comprehension f l = inl e.
Proof.
  induction 1 as [s l (e & He)|s l Hex IH]; simpl.
  - exists s, e. rewrite He. split; [left|done].
  - destruct (f s) as [e|o] eqn:Hs; simpl.
    + exists s, e. split; [left|done].
    + destruct IH as (s' & e & Hin & Hs' & ->). exists s', e.
      split; [by right|done].
Qed.

Lemma entity_inr s o :
  entity s = inr o ↔
  ∃ d n sr ap, s = VDict d ∧ d !! "name" = Some n ∧
    d !! "is_searchable" = Some sr ∧ d !! "is_applicable" = Some ap ∧
    o = VDict (<["name" := n]> (<["isSearchable" := sr]>
              (<["is_applicable" := ap]> ∅))).
Proof.
  unfold entity, subscript. split.
  - destruct s as [| | | | |d]; simpl; try discriminate.
    destruct (d !! "name") as [n|] eqn:Hn; simpl; [|discriminate].
    destruct (d !! "is_searchable") as [sr|] eqn:Hsr; simpl; [|discriminate].
    destruct (d !! "is_applicable") as [ap|] eqn:Hap; simpl; [|discriminate].
    intros [= <-]. by exists d, n, sr, ap.
  - intros (d & n & sr & ap & -> & Hn & Hsr & Hap & ->).
    simpl. rewrite Hn. simpl. rewrite Hsr. simpl. by rewrite Hap.
Qed.

Lemma entity_missing_key (d : gmap string value) :
  d !! "name" = None ∨ d !! "is_searchable" = None ∨
    d !! "is_applicable" = None →
  ∃ k, k ∈ ["name"; "is_searchable"; "is_applicable"] ∧
       entity (VDict d) = inl (KeyError k).
Proof.
  intros Hmiss. unfold entity, subscript.
  destruct (d !! "name") as [n|]; simpl.
  - destruct (d !! "is_searchable") as [sr|]; simpl.
    + destruct (d !! "is_applicable") as [ap|]; simpl.
      * by destruct Hmiss as [?|[?|?]].
      * exists "is_applicable". split; [repeat constructor|done].
    + exists "is_searchable". split; [repeat constructor|done].
  - exists "name". split; [repeat constructor|done].
Qed.

Lemma truthy_VList_cons (l : list value) : l ≠ [] → truthy (VList l) = true.
Proof. by destruct l. Qed.

(** ** The frame of the monad's primitives *)

Section Frame.
Context {W : Type}.

Lemma frames_ret {A} (a : A) : frames_self (W:=W) (ret a).
Proof. by intros st. Qed.

Lemma frames_raise {A} e : frames_self (W:=W) (raise (A:=A) e).
Proof. by intros st. Qed.

Lemma frames_lift {A} (r : result A) : frames_self (W:=W) (lift r).
Proof. by destruct r; intros st. Qed.

Lemma frames_getattr attr : frames_self (W:=W) (getattr attr).
Proof. intros st. unfold getattr. by destruct (st_self st !! attr). Qed.

Lemma frames_logger r : frames_self (W:=W) (logger r).
Proof. by intros st. Qed.

Lemma frames_invoke (conn : Connection W) c : frames_self (invoke conn c).
Proof. intros st. unfold invoke. by destruct (answer conn c (st_world st)). Qed.

Lemma frames_bind {A B} (m : M W A) (k : A → M W B) :
  frames_self m → (∀ a, frames_self (k a)) → frames_self (bind m k).
Proof.
  intros Hm Hk st. unfold bind. specialize (Hm st).
  destruct (m st) as [[e|a] st']; simpl in *; [done|].
  by rewrite Hk.
Qed.

Lemma frames_if {A} (b : bool) (m1 m2 : M W A) :
  frames_self m1 → frames_self m2 → frames_self (if b then m1 else m2).
Proof. by destruct b. Qed.

End Frame.

Create HintDb frame.
#[local] Hint Resolve frames_ret frames_raise frames_lift frames_getattr
  frames_logger frames_invoke frames_if : frame.

Ltac frame_method :=
  repeat first
    [ apply frames_bind; [|intros ?]
    | apply frames_if
    | solve [auto with frame] ].

(** C9. Every operation of the client leaves the attributes of [self] as
    they were: the [connection] reference is the same before and after the
    call, whether the call returns or raises, and no attribute is created
    or changed ([__init__] alone assigns one, [connection]).  The attribute
    dictionary is all the state the client has; the world behind the
    connection and the logger's records are not the client's. *)
Theorem codes_methods_frame_self (W : Type) (st : state W) :
  (∀ name supported_entities parent_code_id code_type page_size,
     st_self (get_codes name supported_entities parent_code_id code_type
                page_size st).2 = st_self st) ∧
  (∀ code_id, st_self (get_code code_id st).2 = st_self st) ∧
  st_self (get_code_types st).2 = st_self st ∧
  (∀ name parent_code_id description code_type supported_entities,
     st_self (create_code name parent_code_id description code_type
                supported_entities st).2 = st_self st) ∧
  (∀ code_id name parent_code_id description code_type supported_entities,
     st_self (update_code code_id name parent_code_id description code_type
                supported_entities st).2 = st_self st) ∧
  (∀ code_id, st_self (delete_code code_id st).2 = st_self st) ∧
  st_self (get_code_supported_entities st).2 = st_self st ∧
  (∀ van_connection,
     st_self (__init__ van_connection st).2
     = <["connection" := van_connection]> (st_self st)).
Proof.
  repeat split; intros; try reflexivity;
    match goal with |- st_self (?m st).2 = _ => revert st; change (frames_self m) end.
  - unfold get_codes. frame_method.
  - unfold get_code. frame_method.
  - unfold get_code_types. frame_method.
  - unfold create_code. frame_method.
  - unfold update_code. frame_method.
  - unfold delete_code. frame_method.
  - unfold get_code_supported_entities. frame_method.
Qed.

(** ** Running a method on a client whose [connection] is set *)

Ltac run_method Hconn :=
  unfold bind, getattr, logger, invoke, ret, raise, lift;
  repeat (simpl; rewrite ?Hconn).

Lemma drop_length_app {A} (l k : list A) : drop (length l) (l ++ k) = k.
Proof. by rewrite drop_app_length. Qed.

Ltac case_answer conn :=
  match goal with
  | |- context [answer conn ?c ?w] =>
      let e := fresh "e" in
      let o := fresh "o" in
      let w' := fresh "w" in
      destruct (answer conn c w) as [[e|o] w']
  end; simpl; rewrite ?drop_length_app.

(** The trace of [create_code] and [update_code], by what becomes of the
    [supported_entities] argument. *)

Lemma sent_by_unchanged {W A} (m : M W A) (st : state W) :
  (m st).2 = st → sent_by m st = [].
Proof. intros Hst. unfold sent_by. rewrite Hst. apply drop_all. Qed.

Lemma create_code_falsy_entities {W} (st : state W) (conn : Connection W)
    (name parent_code_id description code_type supported_entities : option value) :
  st_self st !! "connection" = Some conn →
  truthy (default VNone supported_entities) = false →
  create_code name parent_code_id description code_type supported_entities st
  = (inl (UnboundLocalError "se"), st).
Proof.
  intros Hconn Hfalsy. unfold create_code. run_method Hconn.
  by rewrite Hfalsy.
Qed.

Lemma create_code_entities_error {W} (st : state W) (conn : Connection W)
    (name parent_code_id description code_type supported_entities : option value)
    (e : exn) :
  st_self st !! "connection" = Some conn →
  truthy (default VNone supported_entities) = true →
  entities (default VNone supported_entities) = inl e →
  create_code name parent_code_id description code_type supported_entities st
  = (inl e, st).
Proof.
  intros Hconn Htruthy Hse. unfold create_code. run_method Hconn.
  by rewrite Htruthy, Hse.
Qed.

Lemma create_code_sent {W} (st : state W) (conn : Connection W)
    (name parent_code_id description code_type supported_entities : option value)
    (se : value) :
  st_self st !! "connection" = Some conn →
  truthy (default VNone supported_entities) = true →
  entities (default VNone supported_entities) = inr se →
  sent_by (create_code name parent_code_id description code_type
             supported_entities) st
  = [Call "request" (uri conn +:+ "codes") (Some "POST")
       (Some (<["description" := default VNone description]>
             (<["supportedEntities" := se]>
             (<["codeType" := default (VStr "SourceCode") code_type]>
             (<["name" := default VNone name]>
             (<["parentCodeId" := default VNone parent_code_id]> ∅))))))
       None None].
Proof.
  intros Hconn Htruthy Hse. unfold sent_by, create_code. cbv zeta.
  rewrite Htruthy. run_method Hconn. rewrite Hse. run_method Hconn.
  by case_answer conn.
Qed.

Lemma update_code_entities_error {W} (st : state W) (conn : Connection W)
    (code_id : Z)
    (name parent_code_id description code_type supported_entities : option value)
    (e : exn) :
  st_self st !! "connection" = Some conn →
  truthy (default VNone supported_entities) = true →
  entities (default VNone supported_entities) = inl e →
  update_code code_id name parent_code_id description code_type
    supported_entities st
  = (inl e, st).
Proof.
  intros Hconn Htruthy Hse. unfold update_code. run_method Hconn.
  by rewrite Htruthy, Hse.
Qed.

Lemma update_code_sent {W} (st : state W)
    (conn : Connection W) (code_id : Z)
    (name parent_code_id description code_type supported_entities : option value)
    (se : value) :
  st_self st !! "connection" = Some conn →
  (truthy (default VNone supported_entities) = true →
   entities (default VNone supported_entities) = inr se) →
  ∃ post_data : gmap string value,
    sent_by (update_code code_id name parent_code_id description code_type
               supported_entities) st
    = [Call "request" (uri conn +:+ "codes/" +:+ pretty code_id)
         (Some "PUT") (Some post_data) None None] ∧
    post_data !! "name"
    = (if truthy (default VNone name)
       then Some (default VNone name) else None) ∧
    post_data !! "parentCodeId"
    = (if truthy (default VNone parent_code_id)
       then Some (default VNone parent_code_id) else None) ∧
    post_data !! "codeType"
    = (if truthy (default VNone code_type)
       then Some (default VNone code_type) else None) ∧
    post_data !! "description"
    = (if truthy (default VNone description)
       then Some (default VNone description) else None) ∧
    post_data !! "supportedEntities"
    = (if truthy (default VNone supported_entities) then Some se else None) ∧
    dom post_data ⊆ {["name"; "parentCodeId"; "codeType"; "description";
                      "supportedEntities"]}.
Proof.
  intros Hconn Hse. unfold sent_by, update_code. cbv zeta.
  remember (default VNone name) as n eqn:En.
  remember (default VNone parent_code_id) as p eqn:Ep.
  remember (default VNone code_type) as c eqn:Ec.
  remember (default VNone description) as d eqn:Ed.
  remember (default VNone supported_entities) as s eqn:Es.
  clear En Ep Ec Ed Es.
  destruct (truthy n), (truthy p), (truthy c), (truthy d), (truthy s);
    try (rewrite (Hse eq_refl)); clear Hse;
    run_method Hconn; case_answer conn;
    (eexists; split; [reflexivity|]);
    (split_and!; try reflexivity;
     rewrite ?dom_insert_L, ?dom_empty_L; set_solver).
Qed.

(** C1. With [supported_entities] left out, [None] or empty, [create_code]
    stops at the read of the local [se], which no path has assigned: it
    raises [UnboundLocalError] and the state is the one it started from, so
    no call has reached the connection and nothing has been logged. *)
Theorem create_code_unbound_se (W : Type) (st : state W) (conn : Connection W)
    (name parent_code_id description code_type supported_entities : option value) :
  st_self st !! "connection" = Some conn →
  truthy (default VNone supported_entities) = false →
  create_code name parent_code_id description code_type supported_entities st
  = (inl (UnboundLocalError "se"), st) ∧
  sent_by (create_code name parent_code_id description code_type
             supported_entities) st = [].
Proof.
  intros Hconn Hfalsy.
  assert (create_code name parent_code_id description code_type
            supported_entities st = (inl (UnboundLocalError "se"), st)) as Hrun
    by (by apply (create_code_falsy_entities st conn)).
  split; [exact Hrun|]. apply sent_by_unchanged. by rewrite Hrun.
Qed.

Lemma create_code_unbound_se_witness :
  create_code (Some (VStr "2018 Canvass")) None None None None
    (Demo.fresh (Demo.fixed (inr (OVal (VInt 1004916)))))
  = (inl (UnboundLocalError "se"),
     Demo.fresh (Demo.fixed (inr (OVal (VInt 1004916))))) ∧
  sent_by (create_code (Some (VStr "2018 Canvass")) None None None None)
    (Demo.fresh (Demo.fixed (inr (OVal (VInt 1004916))))) = [].
Proof.
  apply (create_code_unbound_se nat
           (Demo.fresh (Demo.fixed (inr (OVal (VInt 1004916)))))
           (Demo.fixed (inr (OVal (VInt 1004916))))
           (Some (VStr "2018 Canvass")) None None None None);
    reflexivity.
Defined.

(** C6. When the connection raises on the GET of [codes/{id}] (for an
    identifier the remote does not know: its not-found error), [get_code]
    raises that very exception: nothing catches, wraps or translates it.
    That GET is the only call made and the world is left as the connection
    left it. *)
Theorem get_code_error_unchanged (W : Type) (st : state W) (conn : Connection W)
    (code_id : Z) (e : exn) (w : W) :
  st_self st !! "connection" = Some conn →
  answer conn (Call "request" (uri conn +:+ "codes/" +:+ pretty code_id)
                 None None None None) (st_world st) = (inl e, w) →
  (get_code code_id st).1 = inl e ∧
  st_world (get_code code_id st).2 = w ∧
  sent_by (get_code code_id) st
  = [Call "request" (uri conn +:+ "codes/" +:+ pretty code_id)
       None None None None].
Proof.
  intros Hconn Hans. unfold sent_by, get_code. run_method Hconn.
  rewrite Hans. simpl. by rewrite drop_length_app.
Qed.

Lemma get_code_error_unchanged_witness :
  (get_code 999 (Demo.fresh (Demo.fixed (inl Demo.not_found)))).1
  = inl (HTTPError 404 "Not Found").
Proof.
  apply (get_code_error_unchanged nat (Demo.fresh (Demo.fixed (inl Demo.not_found)))
           (Demo.fixed (inl Demo.not_found)) 999 Demo.not_found 1%nat);
    reflexivity.
Defined.

(** C7. [delete_code] makes one call on the connection, a DELETE on the item
    end point [codes/{id}] asking for the raw response, and returns what the
    connection answers as it is: on the happy path, where the remote answers
    204 'No Content', the caller gets that raw response. *)
Theorem delete_code_raw_response (W : Type) (st : state W) (conn : Connection W)
    (code_id : Z) :
  st_self st !! "connection" = Some conn →
  let c := Call "request" (uri conn +:+ "codes/" +:+ pretty code_id)
             (Some "DELETE") None None (Some true) in
  sent_by (delete_code code_id) st = [c] ∧
  (delete_code code_id st).1 = (answer conn c (st_world st)).1 ∧
  (∀ r w, answer conn c (st_world st) = (inr r, w) →
          (delete_code code_id st).1 = inr r).
Proof.
  intros Hconn c.
  assert (sent_by (delete_code code_id) st = [c] ∧
          (delete_code code_id st).1 = (answer conn c (st_world st)).1)
    as [Hsent Hres].
  { unfold sent_by, delete_code. run_method Hconn. fold c.
    destruct (answer conn c (st_world st)) as [[e|r] w]; simpl;
      by rewrite drop_length_app. }
  split_and!; [done..|]. intros r w Hans. by rewrite Hres, Hans.
Qed.

Lemma delete_code_raw_response_witness :
  (delete_code 1004916 (Demo.fresh (Demo.fixed (inr Demo.no_content)))).1
  = inr (OResponse 204 "No Content" None) ∧
  sent_by (delete_code 1004916) (Demo.fresh (Demo.fixed (inr Demo.no_content)))
  = [Call "request" "https://api.securevan.com/v4/codes/1004916"
       (Some "DELETE") None None (Some true)].
Proof.
  pose proof (delete_code_raw_response nat
                (Demo.fresh (Demo.fixed (inr Demo.no_content)))
                (Demo.fixed (inr Demo.no_content)) 1004916 eq_refl)
    as (Hsent & _ & Hres).
  split; [apply (Hres Demo.no_content 1%nat); reflexivity|apply Hsent].
Defined.

(** C2, as the code has it.  [get_codes] hands the connection a mapping
    with the same five keys whatever the filters are: each filter key is
    bound to the value of its argument, [None] included, and [$top] to
    [page_size] (200 when left out). *)
Theorem get_codes_args_fixed_keys (W : Type) (st : state W) (conn : Connection W)
    (name supported_entities parent_code_id code_type page_size : option value) :
  st_self st !! "connection" = Some conn →
  ∃ args : gmap string value,
    sent_by (get_codes name supported_entities parent_code_id code_type
               page_size) st
    = [Call "request_paginate" (uri conn +:+ "codes") None None (Some args) None] ∧
    dom args = {["name"; "supportedEntities"; "parentCodeId"; "codeType"; "$top"]} ∧
    args !! "name" = Some (default VNone name) ∧
    args !! "supportedEntities" = Some (default VNone supported_entities) ∧
    args !! "parentCodeId" = Some (default VNone parent_code_id) ∧
    args !! "codeType" = Some (default VNone code_type) ∧
    args !! "$top" = Some (default (VInt 200) page_size).
Proof.
  intros Hconn. eexists. split.
  { unfold sent_by, get_codes. run_method Hconn.
    match goal with
    | |- context [answer conn ?c ?w] =>
        destruct (answer conn c w) as [[e|o] w']
    end; simpl.
    - by rewrite drop_length_app.
    - destruct (num_rows o); simpl; by rewrite drop_length_app. }
  split; [|by split_and!].
  rewrite !dom_insert_L, dom_empty_L. set_solver.
Qed.

Lemma get_codes_args_fixed_keys_witness :
  ∃ args : gmap string value,
    sent_by (get_codes (Some (VStr "Canvass")) None None None None)
      (Demo.fresh (Demo.fixed (inr (OTable ["codeId"] []))))
    = [Call "request_paginate" "https://api.securevan.com/v4/codes"
         None None (Some args) None] ∧
    args !! "name" = Some (VStr "Canvass") ∧
    args !! "codeType" = Some VNone.
Proof.
  destruct (get_codes_args_fixed_keys nat
              (Demo.fresh (Demo.fixed (inr (OTable ["codeId"] []))))
              (Demo.fixed (inr (OTable ["codeId"] [])))
              (Some (VStr "Canvass")) None None None None eq_refl)
    as (args & Hsent & _ & Hname & _ & _ & Htype & _).
  exists args. split_and!; [exact Hsent|exact Hname|exact Htype].
Defined.

(** C2 as stated fails: with every filter left at [None], the mapping that
    reaches the connection still has the key [name], bound to [None]. *)
Lemma get_codes_null_filter_sent :
  ¬ (∀ c args,
       c ∈ sent_by (get_codes None None None None None)
             (Demo.fresh (Demo.fixed (inr (OTable ["codeId"] [])))) →
       c_args c = Some args →
       args !! "name" = None).
Proof.
  intros Hclaim.
  assert (sent_by (W:=nat) (get_codes None None None None None)
            (Demo.fresh (Demo.fixed (inr (OTable ["codeId"] []))))
          = [Call "request_paginate" "https://api.securevan.com/v4/codes"
               None None
               (Some (<["$top" := VInt 200]> (<["codeType" := VNone]>
                     (<["parentCodeId" := VNone]>
                     (<["supportedEntities" := VNone]>
                     (<["name" := VNone]> ∅)))))) None]) as Hsent
    by reflexivity.
  rewrite Hsent in Hclaim.
  specialize (Hclaim _ _ ltac:(left) eq_refl). discriminate.
Qed.

(** C3, as the code has it.  When [update_code] gets as far as the request,
    the PUT body holds exactly the fields whose value is truthy, each under
    its wire name and bound to the value supplied ([supportedEntities] to the
    rewritten list); a field that is left out, [None], empty, zero or [False]
    has no key.  A call with a non-empty [name] and nothing else sends
    exactly [{"name": name}]. *)
Theorem update_code_body_truthy_fields (W : Type) (st : state W)
    (conn : Connection W) (code_id : Z)
    (name parent_code_id description code_type supported_entities : option value)
    (se : value) :
  st_self st !! "connection" = Some conn →
  (truthy (default VNone supported_entities) = true →
   entities (default VNone supported_entities) = inr se) →
  ∃ post_data : gmap string value,
    sent_by (update_code code_id name parent_code_id description code_type
               supported_entities) st
    = [Call "request" (uri conn +:+ "codes/" +:+ pretty code_id)
         (Some "PUT") (Some post_data) None None] ∧
    post_data !! "name"
    = (if truthy (default VNone name)
       then Some (default VNone name) else None) ∧
    post_data !! "parentCodeId"
    = (if truthy (default VNone parent_code_id)
       then Some (default VNone parent_code_id) else None) ∧
    post_data !! "codeType"
    = (if truthy (default VNone code_type)
       then Some (default VNone code_type) else None) ∧
    post_data !! "description"
    = (if truthy (default VNone description)
       then Some (default VNone description) else None) ∧
    post_data !! "supportedEntities"
    = (if truthy (default VNone supported_entities) then Some se else None) ∧
    (∀ k, k ∉ ["name"; "parentCodeId"; "codeType"; "description";
               "supportedEntities"] → post_data !! k = None) ∧
    (truthy (default VNone name) = true →
     truthy (default VNone parent_code_id) = false →
     truthy (default VNone code_type) = false →
     truthy (default VNone description) = false →
     truthy (default VNone supported_entities) = false →
     post_data = {["name" := default VNone name]}).
Proof.
  intros Hconn Hse.
  destruct (update_code_sent st conn code_id name parent_code_id description
              code_type supported_entities se Hconn Hse)
    as (post_data & Hsent & Hn & Hp & Hc & Hd & Hs & Hdom).
  assert (∀ k, k ∉ ["name"; "parentCodeId"; "codeType"; "description";
                    "supportedEntities"] → post_data !! k = None) as Hother.
  { intros k Hk. apply not_elem_of_dom. intros Hin. apply Hk.
    apply Hdom in Hin. set_solver. }
  exists post_data. split_and!; try done.
  intros Tn Tp Tc Td Ts. rewrite Tn in Hn. rewrite Tp in Hp.
  rewrite Tc in Hc. rewrite Td in Hd. rewrite Ts in Hs.
  apply map_eq. intros k.
  destruct (decide (k = "name")) as [->|Hname].
  { by rewrite Hn, lookup_singleton_eq. }
  rewrite lookup_singleton_ne by done.
  destruct (decide (k = "parentCodeId")) as [->|?]; [done|].
  destruct (decide (k = "codeType")) as [->|?]; [done|].
  destruct (decide (k = "description")) as [->|?]; [done|].
  destruct (decide (k = "supportedEntities")) as [->|?]; [done|].
  apply Hother. set_solver.
Qed.

Lemma update_code_body_truthy_fields_witness :
  ∃ post_data : gmap string value,
    sent_by (update_code 1004916 (Some (VStr "2018 Canvass")) None None None None)
      (Demo.fresh (Demo.fixed (inr (OVal (VInt 1004916)))))
    = [Call "request" "https://api.securevan.com/v4/codes/1004916"
         (Some "PUT") (Some post_data) None None] ∧
    post_data = {["name" := VStr "2018 Canvass"]}.
Proof.
  destruct (update_code_body_truthy_fields nat
              (Demo.fresh (Demo.fixed (inr (OVal (VInt 1004916)))))
              (Demo.fixed (inr (OVal (VInt 1004916)))) 1004916
              (Some (VStr "2018 Canvass")) None None None None VNone
              eq_refl ltac:(discriminate))
    as (post_data & Hsent & _ & _ & _ & _ & _ & _ & Honly).
  exists post_data. split; [exact Hsent|].
  apply Honly; reflexivity.
Defined.

(** C3 as stated fails: a call that supplies only [name], as the empty
    string, sends a body without the key [name]. *)
Lemma update_code_empty_name_dropped :
  ¬ (∀ c post_data,
       c ∈ sent_by (update_code 1004916 (Some (VStr "")) None None None None)
             (Demo.fresh (Demo.fixed (inr (OVal (VInt 1004916))))) →
       c_post_data c = Some post_data →
       post_data = {["name" := VStr ""]}).
Proof.
  intros Hclaim.
  assert (sent_by (W:=nat)
            (update_code 1004916 (Some (VStr "")) None None None None)
            (Demo.fresh (Demo.fixed (inr (OVal (VInt 1004916)))))
          = [Call "request" "https://api.securevan.com/v4/codes/1004916"
               (Some "PUT") (Some ∅) None None]) as Hsent
    by reflexivity.
  rewrite Hsent in Hclaim.
  specialize (Hclaim _ _ ltac:(left) eq_refl).
  apply (f_equal (λ m : gmap string value, m !! "name")) in Hclaim.
  discriminate.
Qed.

(** C8. The default [code_type='SourceCode'] does not reach the wire on the
    call that leaves [supported_entities] out as well: with [code_type]
    omitted and [supported_entities] absent, [None] or empty, [create_code]
    raises [UnboundLocalError] on the local [se] and sends nothing, so no
    POST body with [codeType] equal to "SourceCode" goes out. *)
Theorem create_code_default_type_not_sent (W : Type) (st : state W)
    (conn : Connection W)
    (name parent_code_id description supported_entities : option value) :
  st_self st !! "connection" = Some conn →
  truthy (default VNone supported_entities) = false →
  (create_code name parent_code_id description None supported_entities st).1
  = inl (UnboundLocalError "se") ∧
  ¬ (∃ c (post_data : gmap string value),
       c ∈ sent_by (create_code name parent_code_id description None
                      supported_entities) st ∧
       c_post_data c = Some post_data ∧
       post_data !! "codeType" = Some (VStr "SourceCode")).
Proof.
  intros Hconn Hfalsy.
  pose proof (create_code_falsy_entities st conn name parent_code_id
                description None supported_entities Hconn Hfalsy) as Hrun.
  split; [by rewrite Hrun|].
  intros (c & post_data & Hc & _).
  rewrite sent_by_unchanged in Hc by (by rewrite Hrun).
  by apply elem_of_nil in Hc.
Qed.

Lemma create_code_default_type_not_sent_witness :
  (create_code (Some (VStr "2018 Canvass")) None None None None
     (Demo.fresh (Demo.fixed (inr (OVal (VInt 1004916)))))).1
  = inl (UnboundLocalError "se") ∧
  ¬ (∃ c (post_data : gmap string value),
       c ∈ sent_by (create_code (Some (VStr "2018 Canvass")) None None None
                      None)
             (Demo.fresh (Demo.fixed (inr (OVal (VInt 1004916))))) ∧
       c_post_data c = Some post_data ∧
       post_data !! "codeType" = Some (VStr "SourceCode")).
Proof.
  apply (create_code_default_type_not_sent nat
           (Demo.fresh (Demo.fixed (inr (OVal (VInt 1004916)))))
           (Demo.fixed (inr (OVal (VInt 1004916))))
           (Some (VStr "2018 Canvass")) None None None);
    reflexivity.
Defined.

(** ** The rewriting of [supported_entities] *)

Lemma entities_VList_inr (l : list value) (se : value) :
  entities (VList l) = inr se ↔ ∃ out, se = VList out ∧ Forall2 wire_entity l out.
Proof.
  unfold entities. simpl. rewrite rbind_inr. split.
  - intros (out & Hout & [= <-]). exists out. split; [done|].
    apply comprehension_inr in Hout.
    eapply Forall2_impl; [exact Hout|]. intros s o Hso. by apply entity_inr.
  - intros (out & -> & Hout). exists out. split; [|done].
    apply comprehension_inr.
    eapply Forall2_impl; [exact Hout|]. intros s o Hso. by apply entity_inr.
Qed.

Lemma wire_entity_total (l : list value) :
  Forall (λ s, ∃ d : gmap string value,
            s = VDict d ∧ is_Some (d !! "name") ∧
            is_Some (d !! "is_searchable") ∧ is_Some (d !! "is_applicable")) l →
  ∃ out, Forall2 wire_entity l out.
Proof.
  induction 1 as [|s l (d & -> & [n Hn] & [sr Hsr] & [ap Hap]) _ [out IH]].
  - exists []. constructor.
  - eexists (_ :: out). constructor; [|exact IH].
    by exists d, n, sr, ap.
Qed.

(** C4. A non-empty [supported_entities] list whose elements have the keys
    [name], [is_searchable] and [is_applicable] goes out, from [create_code]
    and from [update_code] alike, as the list of the same length whose
    elements are [{name, isSearchable, is_applicable}] with the values of the
    caller's elements, under the key [supportedEntities] of the body. *)
Theorem supported_entities_rewritten (W : Type) (st : state W)
    (conn : Connection W) (code_id : Z)
    (name parent_code_id description code_type : option value)
    (l : list value) :
  st_self st !! "connection" = Some conn →
  l ≠ [] →
  Forall (λ s, ∃ d : gmap string value,
            s = VDict d ∧ is_Some (d !! "name") ∧
            is_Some (d !! "is_searchable") ∧ is_Some (d !! "is_applicable")) l →
  ∃ (se : list value) (post_data put_data : gmap string value),
    Forall2 wire_entity l se ∧
    sent_by (create_code name parent_code_id description code_type
               (Some (VList l))) st
    = [Call "request" (uri conn +:+ "codes") (Some "POST")
         (Some post_data) None None] ∧
    post_data !! "supportedEntities" = Some (VList se) ∧
    sent_by (update_code code_id name parent_code_id description code_type
               (Some (VList l))) st
    = [Call "request" (uri conn +:+ "codes/" +:+ pretty code_id) (Some "PUT")
         (Some put_data) None None] ∧
    put_data !! "supportedEntities" = Some (VList se).
Proof.
  intros Hconn Hne Hkeys.
  destruct (wire_entity_total l Hkeys) as [se Hse].
  assert (truthy (default VNone (Some (VList l))) = true) as Htruthy
    by by apply truthy_VList_cons.
  assert (entities (default VNone (Some (VList l))) = inr (VList se)) as Hent
    by (apply entities_VList_inr; eauto).
  destruct (update_code_sent st conn code_id name parent_code_id description
              code_type (Some (VList l)) (VList se) Hconn (λ _, Hent))
    as (put_data & Hput & _ & _ & _ & _ & Hs & _).
  rewrite Htruthy in Hs.
  eexists se, _, put_data. split; [done|].
  split; [by apply create_code_sent|]. by split.
Qed.

Lemma supported_entities_rewritten_witness :
  ∃ post_data : gmap string value,
    sent_by (create_code (Some (VStr "2018 Canvass")) None None None
               (Some (VList [VDict Demo.event])))
      (Demo.fresh (Demo.fixed (inr (OVal (VInt 1004916)))))
    = [Call "request" "https://api.securevan.com/v4/codes" (Some "POST")
         (Some post_data) None None] ∧
    post_data !! "supportedEntities"
    = Some (VList [VDict (<["name" := VStr "Event"]>
                         (<["isSearchable" := VBool true]>
                         (<["is_applicable" := VBool true]> ∅)))]).
Proof.
  destruct (supported_entities_rewritten nat
              (Demo.fresh (Demo.fixed (inr (OVal (VInt 1004916)))))
              (Demo.fixed (inr (OVal (VInt 1004916)))) 1004916
              (Some (VStr "2018 Canvass")) None None None
              [VDict Demo.event] eq_refl ltac:(discriminate))
    as (se & post_data & _ & Hse & Hsent & Hbody & _).
  { constructor; [|constructor].
    exists Demo.event. split_and!; [reflexivity|eexists; reflexivity..]. }
  exists post_data. split; [exact Hsent|]. rewrite Hbody.
  apply Forall2_cons_inv_l in Hse
    as (o & out & (d & n & sr & ap & Hd & Hn & Hsr & Hap & ->) & Hnil & ->).
  apply Forall2_nil_inv_l in Hnil as ->.
  injection Hd as <-.
  vm_compute in Hn, Hsr, Hap.
  injection Hn as <-. injection Hsr as <-. injection Hap as <-.
  reflexivity.
Defined.

Lemma entity_VDict_inl (d : gmap string value) (e : exn) :
  entity (VDict d) = inl e →
  ∃ k, k ∈ ["name"; "is_searchable"; "is_applicable"] ∧ e = KeyError k.
Proof.
  unfold entity, subscript.
  destruct (d !! "name") as [n|]; simpl.
  - destruct (d !! "is_searchable") as [sr|]; simpl.
    + destruct (d !! "is_applicable") as [ap|]; simpl; [discriminate|].
      intros [= <-]. eexists. split; [|done]. repeat constructor.
    + intros [= <-]. eexists. split; [|done]. repeat constructor.
  - intros [= <-]. eexists. split; [|done]. repeat constructor.
Qed.

Lemma entities_missing_key (ds : list (gmap string value)) (d : gmap string value) :
  d ∈ ds →
  d !! "name" = None ∨ d !! "is_searchable" = None ∨
    d !! "is_applicable" = None →
  ∃ k, k ∈ ["name"; "is_searchable"; "is_applicable"] ∧
       entities (VList (VDict <$> ds)) = inl (KeyError k).
Proof.
  intros Hin Hmiss.
  destruct (comprehension_inl entity (VDict <$> ds)) as (s & e & Hs & He & Hall).
  { apply Exists_exists. exists (VDict d). split.
    - by apply list_elem_of_fmap_2.
    - destruct (entity_missing_key d Hmiss) as (k & _ & Hk). eauto. }
  apply list_elem_of_fmap in Hs as (d' & -> & _).
  apply entity_VDict_inl in He as (k & Hk & ->).
  exists k. split; [done|]. unfold entities. simpl. by rewrite Hall.
Qed.

Lemma wire_entity_keys (l out : list value) :
  Forall2 wire_entity l out →
  Forall (λ o, ∃ od : gmap string value,
            o = VDict od ∧
            dom od = {["name"; "isSearchable"; "is_applicable"]} ∧
            od !! "start_time" = None ∧ od !! "end_time" = None) out.
Proof.
  induction 1 as [|s o l out (d & n & sr & ap & _ & _ & _ & _ & ->) _ IH];
    constructor; [|done].
  eexists. split; [done|]. split_and!; [|done..].
  rewrite !dom_insert_L, dom_empty_L. set_solver.
Qed.

(** C10. In a non-empty [supported_entities] list of dictionaries every
    element must have the keys [name], [is_searchable] and [is_applicable]:
    if one lacks any of them (say it has [name], [start_time] and [end_time]
    only), [create_code] and [update_code] raise [KeyError] on one of these
    three keys and leave the state as it was, so no request has been sent.
    Whatever does go out has neither [start_time] nor [end_time], in the body
    or in an element of [supportedEntities]: the elements have the keys
    [name], [isSearchable] and [is_applicable] and no other. *)
Theorem supported_entities_keys_required (W : Type) (st : state W)
    (conn : Connection W) (code_id : Z)
    (name parent_code_id description code_type : option value)
    (ds : list (gmap string value)) :
  st_self st !! "connection" = Some conn →
  ds ≠ [] →
  ((∃ d, d ∈ ds ∧
         (d !! "name" = None ∨ d !! "is_searchable" = None ∨
          d !! "is_applicable" = None)) →
   ∃ k, k ∈ ["name"; "is_searchable"; "is_applicable"] ∧
        create_code name parent_code_id description code_type
          (Some (VList (VDict <$> ds))) st
        = (inl (KeyError k), st) ∧
        update_code code_id name parent_code_id description code_type
          (Some (VList (VDict <$> ds))) st
        = (inl (KeyError k), st)) ∧
  (∀ c (post_data : gmap string value),
     c ∈ sent_by (create_code name parent_code_id description code_type
                    (Some (VList (VDict <$> ds)))) st
         ++ sent_by (update_code code_id name parent_code_id description
                       code_type (Some (VList (VDict <$> ds)))) st →
     c_post_data c = Some post_data →
     post_data !! "start_time" = None ∧ post_data !! "end_time" = None ∧
     ∃ se, post_data !! "supportedEntities" = Some (VList se) ∧
           length se = length ds ∧
           ∀ o, o ∈ se →
                ∃ od : gmap string value,
                  o = VDict od ∧
                  dom od = {["name"; "isSearchable"; "is_applicable"]} ∧
                  od !! "start_time" = None ∧ od !! "end_time" = None).
Proof.
  intros Hconn Hne.
  assert (truthy (default VNone (Some (VList (VDict <$> ds)))) = true)
    as Htruthy.
  { apply truthy_VList_cons. by destruct ds. }
  split.
  - intros (d & Hin & Hmiss).
    destruct (entities_missing_key ds d Hin Hmiss) as (k & Hk & Hent).
    exists k. split; [done|]. split.
    + by eapply create_code_entities_error.
    + by eapply update_code_entities_error.
  - intros c post_data Hc Hbody.
    destruct (entities (VList (VDict <$> ds))) as [e|se'] eqn:Hent.
    { rewrite !sent_by_unchanged in Hc; [by apply elem_of_nil in Hc| |].
      - by erewrite update_code_entities_error.
      - by erewrite create_code_entities_error. }
    pose proof Hent as Hwire.
    apply entities_VList_inr in Hwire as (se & -> & Hwire).
    assert (length se = length ds) as Hlen.
    { apply Forall2_length in Hwire. by rewrite length_fmap in Hwire. }
    pose proof (wire_entity_keys _ _ Hwire) as Hkeys.
    rewrite Forall_forall in Hkeys.
    apply elem_of_app in Hc as [Hc|Hc].
    + erewrite create_code_sent in Hc by done.
      apply list_elem_of_singleton in Hc as ->. simpl in Hbody.
      injection Hbody as <-.
      split_and!; [done..|]. exists se. by split_and!.
    + destruct (update_code_sent st conn code_id name parent_code_id
                  description code_type (Some (VList (VDict <$> ds)))
                  (VList se) Hconn (λ _, Hent))
        as (put_data & Hput & _ & _ & _ & _ & Hs & Hdom).
      rewrite Hput in Hc. apply list_elem_of_singleton in Hc as ->.
      simpl in Hbody. injection Hbody as <-. rewrite Htruthy in Hs.
      split_and!.
      * apply not_elem_of_dom. intros Hin. apply Hdom in Hin. set_solver.
      * apply not_elem_of_dom. intros Hin. apply Hdom in Hin. set_solver.
      * exists se. by split_and!.
Qed.

Lemma supported_entities_keys_required_witness :
  ∃ k,
    create_code (Some (VStr "2018 Canvass")) None None None
      (Some (VList (VDict <$> [Demo.event; Demo.locations])))
      (Demo.fresh (Demo.fixed (inr (OVal (VInt 1004916)))))
    = (inl (KeyError k), Demo.fresh (Demo.fixed (inr (OVal (VInt 1004916))))) ∧
    update_code 1004916 (Some (VStr "2018 Canvass")) None None None
      (Some (VList (VDict <$> [Demo.event; Demo.locations])))
      (Demo.fresh (Demo.fixed (inr (OVal (VInt 1004916)))))
    = (inl (KeyError k), Demo.fresh (Demo.fixed (inr (OVal (VInt 1004916))))).
Proof.
  destruct (supported_entities_keys_required nat
              (Demo.fresh (Demo.fixed (inr (OVal (VInt 1004916)))))
              (Demo.fixed (inr (OVal (VInt 1004916)))) 1004916
              (Some (VStr "2018 Canvass")) None None None
              [Demo.event; Demo.locations] eq_refl ltac:(discriminate))
    as [Hraise _].
  destruct Hraise as (k & _ & Hcreate & Hupdate).
  { exists Demo.locations. split; [right; left|].
    right; left; reflexivity. }
  exists k. split; [exact Hcreate|exact Hupdate].
Defined.

(** ** The metadata end points *)

Lemma zip_longest_single (missing : value) (l : list value) :
  petl.zip_longest missing [l] = (λ x, [x]) <$> l.
Proof.
  unfold petl.zip_longest, petl.longest. simpl. rewrite Nat.max_0_r.
  apply list_eq. intros i. rewrite !list_lookup_fmap.
  destruct (l !! i) as [x|] eqn:Hi; simpl.
  - rewrite lookup_seq_lt by (by eapply lookup_lt_Some). simpl.
    by rewrite Hi.
  - rewrite lookup_seq_ge; [done|]. by apply lookup_ge_None_1.
Qed.

Lemma fromcolumns_single (l : list value) (header : list string) :
  petl.fromcolumns [VList l] header = inr (header, (λ x, [x]) <$> l).
Proof. unfold petl.fromcolumns. simpl. by rewrite zip_longest_single. Qed.

(** C5. When the remote answers the metadata end point with a JSON array,
    [get_code_types] returns the table whose header is [code_type] alone and
    whose rows are the one-element rows of the array's elements, in order,
    one row per element; [get_code_supported_entities] does the same under
    the header [supported_entities]. *)
Theorem metadata_single_column_tables (W : Type) (st : state W)
    (conn : Connection W) (r : pyobj) (w : W) (l : list value) :
  st_self st !! "connection" = Some conn →
  json r = inr (VList l) →
  (answer conn (Call "request" (uri conn +:+ "codeTypes") None None None
                  (Some true)) (st_world st) = (inr r, w) →
   ∃ rows, (get_code_types st).1 = inr (OTable ["code_type"] rows) ∧
           length rows = length l ∧
           ∀ i, rows !! i = (λ x, [x]) <$> l !! i) ∧
  (answer conn (Call "request" (uri conn +:+ "codes/supportedEntities") None
                  None None (Some true)) (st_world st) = (inr r, w) →
   ∃ rows, (get_code_supported_entities st).1
           = inr (OTable ["supported_entities"] rows) ∧
           length rows = length l ∧
           ∀ i, rows !! i = (λ x, [x]) <$> l !! i).
Proof.
  intros Hconn Hjson. split; intros Hans; exists ((λ x, [x]) <$> l).
  - split_and!.
    + unfold get_code_types. run_method Hconn. rewrite Hans.
      cbn -[petl.fromcolumns]. rewrite Hjson.
      cbn -[petl.fromcolumns]. by rewrite fromcolumns_single.
    + by rewrite length_fmap.
    + intros i. by rewrite list_lookup_fmap.
  - split_and!.
    + unfold get_code_supported_entities. run_method Hconn. rewrite Hans.
      cbn -[petl.fromcolumns]. rewrite Hjson.
      cbn -[petl.fromcolumns]. by rewrite fromcolumns_single.
    + by rewrite length_fmap.
    + intros i. by rewrite list_lookup_fmap.
Qed.

Lemma metadata_single_column_tables_witness :
  ∃ rows,
    (get_code_types
       (Demo.fresh (Demo.fixed (inr (OResponse 200 "OK"
          (Some (VList [VStr "SourceCode"; VStr "Tag"]))))))).1
    = inr (OTable ["code_type"] rows) ∧
    length rows = 2%nat ∧
    rows !! 1%nat = Some [VStr "Tag"].
Proof.
  destruct (metadata_single_column_tables nat
              (Demo.fresh (Demo.fixed (inr (OResponse 200 "OK"
                 (Some (VList [VStr "SourceCode"; VStr "Tag"]))))))
              (Demo.fixed (inr (OResponse 200 "OK"
                 (Some (VList [VStr "SourceCode"; VStr "Tag"])))))
              (OResponse 200 "OK" (Some (VList [VStr "SourceCode"; VStr "Tag"])))
              1%nat [VStr "SourceCode"; VStr "Tag"] eq_refl eq_refl)
    as [Htypes _].
  destruct (Htypes eq_refl) as (rows & Hres & Hlen & Hrows).
  exists rows. split_and!; [exact Hres|exact Hlen|exact (Hrows 1%nat)].
Defined.

(** * Further properties of the methods *)

(** ** One round trip per method *)

Section Calls.
Context {W : Type}.

Lemma silent_ret {A} (a : A) : silent (W:=W) (ret a).
Proof. by intros st. Qed.

Lemma silent_lift {A} (r : result A) : silent (W:=W) (lift r).
Proof. by destruct r; intros st. Qed.

Lemma silent_getattr attr : silent (W:=W) (getattr attr).
Proof. intros st. unfold getattr. by destruct (st_self st !! attr). Qed.

Lemma silent_logger r : silent (W:=W) (logger r).
Proof. by intros st. Qed.

Lemma silent_bind {A B} (m : M W A) (k : A → M W B) :
  silent m → (∀ a, silent (k a)) → silent (bind m k).
Proof.
  intros Hm Hk st. unfold bind. specialize (Hm st).
  destruct (m st) as [[e|a] st']; simpl in *; [done|].
  by rewrite Hk.
Qed.

Lemma silent_if {A} (b : bool) (m1 m2 : M W A) :
  silent m1 → silent m2 → silent (if b then m1 else m2).
Proof. by destruct b. Qed.

Lemma single_call_invoke (conn : Connection W) c : single_call (invoke conn c).
Proof.
  intros st. exists [c]. unfold invoke.
  by destruct (answer conn c (st_world st)).
Qed.

Lemma single_call_after {A B} (m : M W A) (k : A → M W B) :
  silent m → (∀ a, single_call (k a)) → single_call (bind m k).
Proof.
  intros Hm Hk st. unfold bind. specialize (Hm st).
  destruct (m st) as [[e|a] st']; simpl in *.
  - exists []. rewrite Hm, app_nil_r. split; [done|simpl; lia].
  - destruct (Hk a st') as (new & -> & Hlen). exists new. by rewrite Hm.
Qed.

Lemma single_call_then {A B} (m : M W A) (k : A → M W B) :
  single_call m → (∀ a, silent (k a)) → single_call (bind m k).
Proof.
  intros Hm Hk st. unfold bind. destruct (Hm st) as (new & Hnew & Hlen).
  destruct (m st) as [[e|a] st']; simpl in *; [by exists new|].
  exists new. by rewrite Hk.
Qed.

Lemma single_call_sent_by {A} (m : M W A) (st : state W) :
  single_call m → (length (sent_by m st) ≤ 1)%nat.
Proof.
  intros Hm. destruct (Hm st) as (new & Hnew & Hlen).
  unfold sent_by. by rewrite Hnew, drop_length_app.
Qed.

End Calls.

Create HintDb calls.
#[local] Hint Resolve silent_ret silent_lift silent_getattr silent_logger
  silent_if : calls.

Ltac silent_steps :=
  repeat first
    [ apply silent_bind; [|intros ?]
    | apply silent_if
    | solve [auto with calls] ].

Ltac single_call_method :=
  repeat (apply single_call_after; [solve [silent_steps]|intros ?]);
  apply single_call_then; [apply single_call_invoke|intros ?; silent_steps].

(** X1. Whatever its arguments and whatever state it starts in, a method
    adds at most one call to the trace of the connection: there is no retry
    and no second request, on return or on raise. *)
Theorem methods_single_round_trip (W : Type) (st : state W) :
  (∀ name supported_entities parent_code_id code_type page_size,
     (length (sent_by (get_codes name supported_entities parent_code_id
                         code_type page_size) st) ≤ 1)%nat) ∧
  (∀ code_id, (length (sent_by (get_code code_id) st) ≤ 1)%nat) ∧
  (length (sent_by get_code_types st) ≤ 1)%nat ∧
  (∀ name parent_code_id description code_type supported_entities,
     (length (sent_by (create_code name parent_code_id description code_type
                         supported_entities) st) ≤ 1)%nat) ∧
  (∀ code_id name parent_code_id description code_type supported_entities,
     (length (sent_by (update_code code_id name parent_code_id description
                         code_type supported_entities) st) ≤ 1)%nat) ∧
  (∀ code_id, (length (sent_by (delete_code code_id) st) ≤ 1)%nat) ∧
  (length (sent_by get_code_supported_entities st) ≤ 1)%nat.
Proof.
  split_and!; intros; apply single_call_sent_by.
  - unfold get_codes. single_call_method.
  - unfold get_code. single_call_method.
  - unfold get_code_types. single_call_method.
  - unfold create_code. single_call_method.
  - unfold update_code. single_call_method.
  - unfold delete_code. single_call_method.
  - unfold get_code_supported_entities. single_call_method.
Qed.

(** ** What the reading methods return *)

Lemma get_code_sent {W} (st : state W) (conn : Connection W) (code_id : Z) :
  st_self st !! "connection" = Some conn →
  sent_by (get_code code_id) st
  = [Call "request" (uri conn +:+ "codes/" +:+ pretty code_id)
       None None None None].
Proof.
  intros Hconn. unfold sent_by, get_code. run_method Hconn.
  by case_answer conn.
Qed.

Lemma delete_code_sent {W} (st : state W) (conn : Connection W) (code_id : Z) :
  st_self st !! "connection" = Some conn →
  sent_by (delete_code code_id) st
  = [Call "request" (uri conn +:+ "codes/" +:+ pretty code_id)
       (Some "DELETE") None None (Some true)].
Proof.
  intros Hconn. unfold sent_by, delete_code. run_method Hconn.
  by case_answer conn.
Qed.

(** X2. [get_code] makes exactly one call, [request] on [codes/{id}] with no
    keyword argument, and what the connection answers, value or exception,
    is what [get_code] returns or raises; the world is left as the
    connection left it. *)
Theorem get_code_returns_answer (W : Type) (st : state W) (conn : Connection W)
    (code_id : Z) :
  st_self st !! "connection" = Some conn →
  let c := Call "request" (uri conn +:+ "codes/" +:+ pretty code_id)
             None None None None in
  sent_by (get_code code_id) st = [c] ∧
  (get_code code_id st).1 = (answer conn c (st_world st)).1 ∧
  st_world (get_code code_id st).2 = (answer conn c (st_world st)).2.
Proof.
  intros Hconn c. split; [by apply get_code_sent|].
  unfold get_code. run_method Hconn. fold c.
  by destruct (answer conn c (st_world st)) as [[e|o] w].
Qed.

Lemma get_code_returns_answer_witness :
  (get_code 1004916
     (Demo.fresh (Demo.fixed (inr (OVal (VDict Demo.event)))))).1
  = inr (OVal (VDict Demo.event)).
Proof.
  apply (get_code_returns_answer nat
           (Demo.fresh (Demo.fixed (inr (OVal (VDict Demo.event)))))
           (Demo.fixed (inr (OVal (VDict Demo.event)))) 1004916 eq_refl).
Defined.

(** X3. When the connection answers the paginated request that [get_codes]
    makes with a table, [get_codes] returns that table as it is, for any
    filters; an empty table is returned like any other, without an error.
    The records logged are the opening message, the table at debug level,
    and the count of its rows. *)
Theorem get_codes_returns_table (W : Type) (st : state W) (conn : Connection W)
    (name supported_entities parent_code_id code_type page_size : option value)
    (header : list string) (rows : list (list value)) (w : W) :
  st_self st !! "connection" = Some conn →
  answer conn
    (Call "request_paginate" (uri conn +:+ "codes") None None
       (Some (<["$top" := default (VInt 200) page_size]>
             (<["codeType" := default VNone code_type]>
             (<["parentCodeId" := default VNone parent_code_id]>
             (<["supportedEntities" := default VNone supported_entities]>
             (<["name" := default VNone name]> ∅)))))) None)
    (st_world st)
  = (inr (OTable header rows), w) →
  (get_codes name supported_entities parent_code_id code_type page_size st).1
  = inr (OTable header rows) ∧
  st_world (get_codes name supported_entities parent_code_id code_type
              page_size st).2 = w ∧
  st_log (get_codes name supported_entities parent_code_id code_type
            page_size st).2
  = st_log st ++ [info [FText "Getting codes..."];
                  debug (OTable header rows);
                  info [FText "Found "; FInt (Z.of_nat (length rows));
                        FText " codes."]].
Proof.
  intros Hconn Hans. unfold get_codes. run_method Hconn.
  rewrite Hans. simpl. by rewrite <- !app_assoc.
Qed.

Lemma get_codes_returns_table_witness :
  (get_codes None None None (Some (VStr "Tag")) None
     (Demo.fresh (Demo.fixed (inr (OTable ["codeId"; "name"] []))))).1
  = inr (OTable ["codeId"; "name"] []).
Proof.
  apply (get_codes_returns_table nat
           (Demo.fresh (Demo.fixed (inr (OTable ["codeId"; "name"] []))))
           (Demo.fixed (inr (OTable ["codeId"; "name"] [])))
           None None None (Some (VStr "Tag")) None
           ["codeId"; "name"] [] 1%nat eq_refl eq_refl).
Defined.

(** ** The bodies of [create_code] and [update_code] compared *)

(** X4. When [create_code] sends its request, the POST body has the five
    keys [parentCodeId], [name], [codeType], [supportedEntities] and
    [description], all of them whatever was supplied: an argument left out
    goes out as [None] ([codeType] as "SourceCode"), and a value is passed
    on as it is, unchecked.  What the connection answers is the outcome. *)
Theorem create_code_body_all_keys (W : Type) (st : state W)
    (conn : Connection W)
    (name parent_code_id description code_type supported_entities : option value)
    (se : value) :
  st_self st !! "connection" = Some conn →
  truthy (default VNone supported_entities) = true →
  entities (default VNone supported_entities) = inr se →
  ∃ post_data : gmap string value,
    sent_by (create_code name parent_code_id description code_type
               supported_entities) st
    = [Call "request" (uri conn +:+ "codes") (Some "POST") (Some post_data)
         None None] ∧
    dom post_data = {["parentCodeId"; "name"; "codeType"; "supportedEntities";
                      "description"]} ∧
    post_data !! "parentCodeId" = Some (default VNone parent_code_id) ∧
    post_data !! "name" = Some (default VNone name) ∧
    post_data !! "codeType" = Some (default (VStr "SourceCode") code_type) ∧
    post_data !! "supportedEntities" = Some se ∧
    post_data !! "description" = Some (default VNone description) ∧
    (create_code name parent_code_id description code_type
       supported_entities st).1
    = (answer conn (Call "request" (uri conn +:+ "codes") (Some "POST")
                      (Some post_data) None None) (st_world st)).1.
Proof.
  intros Hconn Htruthy Hse. eexists. split; [by apply create_code_sent|].
  split; [rewrite !dom_insert_L, dom_empty_L; set_solver|].
  split_and!; try reflexivity.
  unfold create_code. cbv zeta. rewrite Htruthy. run_method Hconn.
  rewrite Hse. run_method Hconn.
  match goal with
  | |- context [answer conn ?c ?w] => by destruct (answer conn c w) as [[e|o] w']
  end.
Qed.

Lemma create_code_body_all_keys_witness :
  ∃ post_data : gmap string value,
    sent_by (create_code (Some (VStr "2018 Canvass")) None None
               (Some (VStr "Bogus")) (Some (VList [VDict Demo.event])))
      (Demo.fresh (Demo.fixed (inr (OVal (VInt 1004916)))))
    = [Call "request" "https://api.securevan.com/v4/codes" (Some "POST")
         (Some post_data) None None] ∧
    post_data !! "codeType" = Some (VStr "Bogus") ∧
    post_data !! "description" = Some VNone.
Proof.
  destruct (create_code_body_all_keys nat
              (Demo.fresh (Demo.fixed (inr (OVal (VInt 1004916)))))
              (Demo.fixed (inr (OVal (VInt 1004916))))
              (Some (VStr "2018 Canvass")) None None (Some (VStr "Bogus"))
              (Some (VList [VDict Demo.event]))
              (VList [VDict (<["name" := VStr "Event"]>
                             (<["isSearchable" := VBool true]>
                             (<["is_applicable" := VBool true]> ∅)))])
              eq_refl eq_refl eq_refl)
    as (post_data & Hsent & _ & _ & _ & Htype & _ & Hdesc & _).
  exists post_data. split_and!; [exact Hsent|exact Htype|exact Hdesc].
Defined.

Lemma map_eq_on_keys (m1 m2 : gmap string value) (ks : list string) :
  (∀ k, k ∉ ks → m1 !! k = None ∧ m2 !! k = None) →
  Forall (λ k, m1 !! k = m2 !! k) ks →
  m1 = m2.
Proof.
  intros Hout Hin. apply map_eq. intros k.
  destruct (decide (k ∈ ks)) as [Hk|Hk].
  - rewrite Forall_forall in Hin. by apply Hin.
  - destruct (Hout k Hk) as [-> ->]. done.
Qed.

(** X5. For the same arguments, what [update_code] puts in its body is part
    of what [create_code] puts in its own: every key of the PUT body is a
    key of the POST body, with the same value.  The POST body has in
    addition the keys of the arguments that are left out or falsy. *)
Theorem update_body_within_create_body (W : Type) (st : state W)
    (conn : Connection W) (code_id : Z)
    (name parent_code_id description code_type supported_entities : option value)
    (se : value) :
  st_self st !! "connection" = Some conn →
  truthy (default VNone supported_entities) = true →
  entities (default VNone supported_entities) = inr se →
  ∃ post_data put_data : gmap string value,
    sent_by (create_code name parent_code_id description code_type
               supported_entities) st
    = [Call "request" (uri conn +:+ "codes") (Some "POST") (Some post_data)
         None None] ∧
    sent_by (update_code code_id name parent_code_id description code_type
               supported_entities) st
    = [Call "request" (uri conn +:+ "codes/" +:+ pretty code_id) (Some "PUT")
         (Some put_data) None None] ∧
    put_data ⊆ post_data.
Proof.
  intros Hconn Htruthy Hse.
  destruct (update_code_sent st conn code_id name parent_code_id description
              code_type supported_entities se Hconn (λ _, Hse))
    as (put_data & Hput & Hn & Hp & Hc & Hd & Hs & Hdom).
  eexists _, put_data. split; [by apply create_code_sent|].
  split; [done|]. apply map_subseteq_spec. intros k v Hk.
  assert (k ∈ dom put_data) as Hin by (apply elem_of_dom; eauto).
  apply Hdom in Hin.
  assert (k = "name" ∨ k = "parentCodeId" ∨ k = "codeType" ∨
          k = "description" ∨ k = "supportedEntities") as Hcases
    by set_solver.
  destruct Hcases as [->|[->|[->|[->| ->]]]].
  - rewrite Hn in Hk.
    destruct (truthy (default VNone name)); by simplify_eq.
  - rewrite Hp in Hk.
    destruct (truthy (default VNone parent_code_id)); by simplify_eq.
  - rewrite Hc in Hk. destruct code_type as [v'|]; simpl in Hk.
    + destruct (truthy v'); by simplify_eq.
    + discriminate.
  - rewrite Hd in Hk.
    destruct (truthy (default VNone description)); by simplify_eq.
  - rewrite Hs, Htruthy in Hk. by simplify_eq.
Qed.

Lemma update_body_within_create_body_witness :
  ∃ post_data put_data : gmap string value,
    sent_by (create_code (Some (VStr "2018 Canvass")) None None None
               (Some (VList [VDict Demo.event])))
      (Demo.fresh (Demo.fixed (inr (OVal (VInt 1004916)))))
    = [Call "request" "https://api.securevan.com/v4/codes" (Some "POST")
         (Some post_data) None None] ∧
    sent_by (update_code 1004916 (Some (VStr "2018 Canvass")) None None None
               (Some (VList [VDict Demo.event])))
      (Demo.fresh (Demo.fixed (inr (OVal (VInt 1004916)))))
    = [Call "request" "https://api.securevan.com/v4/codes/1004916" (Some "PUT")
         (Some put_data) None None] ∧
    put_data ⊆ post_data.
Proof.
  apply (update_body_within_create_body nat
           (Demo.fresh (Demo.fixed (inr (OVal (VInt 1004916)))))
           (Demo.fixed (inr (OVal (VInt 1004916)))) 1004916
           (Some (VStr "2018 Canvass")) None None None
           (Some (VList [VDict Demo.event]))
           (VList [VDict (<["name" := VStr "Event"]>
                          (<["isSearchable" := VBool true]>
                          (<["is_applicable" := VBool true]> ∅)))]));
    reflexivity.
Defined.

(** X6. When every field of [update_code] is left out or falsy, the PUT is
    sent all the same, with the empty body. *)
Theorem update_code_nothing_supplied (W : Type) (st : state W)
    (conn : Connection W) (code_id : Z)
    (name parent_code_id description code_type supported_entities : option value) :
  st_self st !! "connection" = Some conn →
  truthy (default VNone name) = false →
  truthy (default VNone parent_code_id) = false →
  truthy (default VNone code_type) = false →
  truthy (default VNone description) = false →
  truthy (default VNone supported_entities) = false →
  sent_by (update_code code_id name parent_code_id description code_type
             supported_entities) st
  = [Call "request" (uri conn +:+ "codes/" +:+ pretty code_id) (Some "PUT")
       (Some ∅) None None].
Proof.
  intros Hconn Tn Tp Tc Td Ts.
  destruct (update_code_sent st conn code_id name parent_code_id description
              code_type supported_entities VNone Hconn)
    as (put_data & Hput & Hn & Hp & Hc & Hd & Hs & Hdom).
  { rewrite Ts. discriminate. }
  rewrite Tn in Hn. rewrite Tp in Hp. rewrite Tc in Hc. rewrite Td in Hd.
  rewrite Ts in Hs. rewrite Hput. do 3 f_equal.
  apply (map_eq_on_keys _ _ ["name"; "parentCodeId"; "codeType";
                             "description"; "supportedEntities"]).
  - intros k Hk. split; [|done]. apply not_elem_of_dom.
    intros Hin. apply Hk. apply Hdom in Hin. set_solver.
  - repeat constructor; by rewrite lookup_empty.
Qed.

Lemma update_code_nothing_supplied_witness :
  sent_by (update_code 1004916 (Some (VStr "")) (Some (VInt 0)) None None
             (Some (VList [])))
    (Demo.fresh (Demo.fixed (inr (OVal (VInt 1004916)))))
  = [Call "request" "https://api.securevan.com/v4/codes/1004916" (Some "PUT")
       (Some ∅) None None].
Proof.
  apply (update_code_nothing_supplied nat
           (Demo.fresh (Demo.fixed (inr (OVal (VInt 1004916)))))
           (Demo.fixed (inr (OVal (VInt 1004916)))) 1004916
           (Some (VStr "")) (Some (VInt 0)) None None (Some (VList [])));
    reflexivity.
Defined.

(** X7. On [update_code] a falsy value cannot be told from an argument that
    is left out: replacing every falsy argument by its absence gives the
    same result and the same final state. *)
Theorem update_code_falsy_as_omitted (W : Type) (st : state W) (code_id : Z)
    (name parent_code_id description code_type supported_entities : option value) :
  update_code code_id name parent_code_id description code_type
    supported_entities st
  = update_code code_id
      (if truthy (default VNone name) then name else None)
      (if truthy (default VNone parent_code_id) then parent_code_id else None)
      (if truthy (default VNone description) then description else None)
      (if truthy (default VNone code_type) then code_type else None)
      (if truthy (default VNone supported_entities)
       then supported_entities else None) st.
Proof.
  unfold update_code. cbv zeta.
  destruct (truthy (default VNone name)) eqn:Tn,
           (truthy (default VNone parent_code_id)) eqn:Tp,
           (truthy (default VNone description)) eqn:Td,
           (truthy (default VNone code_type)) eqn:Tc,
           (truthy (default VNone supported_entities)) eqn:Ts;
    simpl; rewrite ?Tn, ?Tp, ?Td, ?Tc, ?Ts; reflexivity.
Qed.

(** ** Malformed [supported_entities] *)

Lemma entities_not_list (v : value) :
  truthy v = true → (∀ l, v ≠ VList l) → entities v = inl TypeError.
Proof.
  intros Htruthy Hlist. unfold entities.
  destruct v as [|b|z|s|l|d]; simpl in *; try done.
  - by destruct s.
  - by destruct (Hlist l).
  - destruct (map_to_list d) as [|[k x] kvs] eqn:Hd; [|done].
    apply map_to_list_empty_iff in Hd as ->.
    by rewrite map_size_empty in Htruthy.
Qed.

Lemma comprehension_first_failure {A B} (f : A → result B)
    (good : list A) (s : A) (rest : list A) (e : exn) :
  Forall (λ x, ∃ o, f x = inr o) good →
  f s = inl e →
  comprehension f (good ++ s :: rest) = inl e.
Proof.
  intros Hgood Hs. induction Hgood as [|x good [o Ho] _ IH]; simpl.
  - by rewrite Hs.
  - by rewrite Ho, IH.
Qed.

(** X8. A truthy [supported_entities] that is a single dictionary, a
    string, an integer or [True], instead of a sequence of dictionaries,
    makes both [create_code] and [update_code] raise [TypeError]: an integer
    or [True] cannot be iterated, and iterating a dictionary or a string yields
    strings, which [s['name']] cannot subscript.  The state is left as it
    was, so nothing has been sent. *)
Theorem supported_entities_scalar_or_dict (W : Type) (st : state W)
    (conn : Connection W) (code_id : Z)
    (name parent_code_id description code_type : option value) (v : value) :
  st_self st !! "connection" = Some conn →
  truthy v = true →
  (∃ d, v = VDict d) ∨ (∃ s, v = VStr s) ∨ (∃ z, v = VInt z) ∨
    v = VBool true →
  create_code name parent_code_id description code_type (Some v) st
  = (inl TypeError, st) ∧
  update_code code_id name parent_code_id description code_type (Some v) st
  = (inl TypeError, st).
Proof.
  intros Hconn Htruthy Hkind.
  assert (entities v = inl TypeError) as Hent.
  { apply entities_not_list; [done|]. intros l ->.
    by destruct Hkind as [[d ?]|[[s ?]|[[z ?]|?]]]. }
  split.
  - by apply (create_code_entities_error st conn).
  - by apply (update_code_entities_error st conn).
Qed.

Lemma supported_entities_scalar_or_dict_witness :
  create_code (Some (VStr "2018 Canvass")) None None None
    (Some (VDict Demo.event))
    (Demo.fresh (Demo.fixed (inr (OVal (VInt 1004916)))))
  = (inl TypeError, Demo.fresh (Demo.fixed (inr (OVal (VInt 1004916))))).
Proof.
  apply (supported_entities_scalar_or_dict nat
           (Demo.fresh (Demo.fixed (inr (OVal (VInt 1004916)))))
           (Demo.fixed (inr (OVal (VInt 1004916)))) 1004916
           (Some (VStr "2018 Canvass")) None None None (VDict Demo.event)
           eq_refl eq_refl).
  left. by exists Demo.event.
Defined.

(** X9. The elements are rewritten in order and the first one that fails
    decides the exception: after any number of well-formed elements, a
    dictionary raises [KeyError] on the first key it lacks among [name],
    [is_searchable], [is_applicable], in this order, whatever follows it in
    the list; nothing is sent. *)
Theorem supported_entities_first_failure (W : Type) (st : state W)
    (conn : Connection W) (code_id : Z)
    (name parent_code_id description code_type : option value)
    (good : list value) (d : gmap string value) (rest : list value)
    (k : string) :
  st_self st !! "connection" = Some conn →
  Forall (λ s, ∃ o, wire_entity s o) good →
  (k = "name" ∧ d !! "name" = None) ∨
  (k = "is_searchable" ∧ is_Some (d !! "name") ∧
     d !! "is_searchable" = None) ∨
  (k = "is_applicable" ∧ is_Some (d !! "name") ∧
     is_Some (d !! "is_searchable") ∧ d !! "is_applicable" = None) →
  create_code name parent_code_id description code_type
    (Some (VList (good ++ VDict d :: rest))) st
  = (inl (KeyError k), st) ∧
  update_code code_id name parent_code_id description code_type
    (Some (VList (good ++ VDict d :: rest))) st
  = (inl (KeyError k), st).
Proof.
  intros Hconn Hgood Hk.
  assert (entity (VDict d) = inl (KeyError k)) as Hd.
  { unfold entity, subscript.
    destruct Hk as [[-> Hn]|[(-> & [n Hn] & Hsr)|(-> & [n Hn] & [sr Hsr] & Hap)]].
    - by rewrite Hn.
    - rewrite Hn. simpl. by rewrite Hsr.
    - rewrite Hn. simpl. rewrite Hsr. simpl. by rewrite Hap. }
  assert (entities (VList (good ++ VDict d :: rest)) = inl (KeyError k))
    as Hent.
  { unfold entities. simpl. rewrite (comprehension_first_failure _ _ _ _ _
      ltac:(eapply Forall_impl; [exact Hgood|];
            intros s [o Ho]; exists o; by apply entity_inr) Hd).
    done. }
  assert (truthy (VList (good ++ VDict d :: rest)) = true) as Htruthy.
  { apply truthy_VList_cons. by destruct good. }
  split.
  - by apply (create_code_entities_error st conn).
  - by apply (update_code_entities_error st conn).
Qed.

Lemma supported_entities_first_failure_witness :
  update_code 1004916 None None None None
    (Some (VList ([VDict Demo.event] ++ VDict Demo.locations :: [VInt 7])))
    (Demo.fresh (Demo.fixed (inr (OVal (VInt 1004916)))))
  = (inl (KeyError "is_searchable"),
     Demo.fresh (Demo.fixed (inr (OVal (VInt 1004916))))).
Proof.
  apply (supported_entities_first_failure nat
           (Demo.fresh (Demo.fixed (inr (OVal (VInt 1004916)))))
           (Demo.fixed (inr (OVal (VInt 1004916)))) 1004916
           None None None None [VDict Demo.event] Demo.locations [VInt 7]
           "is_searchable" eq_refl).
  - constructor; [|constructor]. eexists. exists Demo.event.
    eexists _, _, _. split_and!; reflexivity.
  - right; left. split_and!; [reflexivity|eexists; reflexivity|reflexivity].
Defined.

(** X10. What the rewriting produces is not accepted by it again: the
    elements that go out carry [isSearchable], not [is_searchable], so a
    non-empty rewritten list passed back as [supported_entities] raises
    [KeyError] on [is_searchable] in both methods, before any request. *)
Theorem rewritten_entities_not_reaccepted (W : Type) (st : state W)
    (conn : Connection W) (code_id : Z)
    (name parent_code_id description code_type : option value)
    (l : list value) (se : value) :
  st_self st !! "connection" = Some conn →
  l ≠ [] →
  entities (VList l) = inr se →
  create_code name parent_code_id description code_type (Some se) st
  = (inl (KeyError "is_searchable"), st) ∧
  update_code code_id name parent_code_id description code_type (Some se) st
  = (inl (KeyError "is_searchable"), st).
Proof.
  intros Hconn Hne Hse.
  apply entities_VList_inr in Hse as (out & -> & Hwire).
  destruct Hwire as [|s o l out (d & n & sr & ap & _ & _ & _ & _ & ->) _];
    [done|].
  assert (entities (VList (VDict (<["name" := n]> (<["isSearchable" := sr]>
                                  (<["is_applicable" := ap]> ∅))) :: out))
          = inl (KeyError "is_searchable")) as Hent by reflexivity.
  split.
  - by apply (create_code_entities_error st conn).
  - by apply (update_code_entities_error st conn).
Qed.

Lemma rewritten_entities_not_reaccepted_witness :
  update_code 1004916 None None None None
    (Some (VList [VDict (<["name" := VStr "Event"]>
                        (<["isSearchable" := VBool true]>
                        (<["is_applicable" := VBool true]> ∅)))]))
    (Demo.fresh (Demo.fixed (inr (OVal (VInt 1004916)))))
  = (inl (KeyError "is_searchable"),
     Demo.fresh (Demo.fixed (inr (OVal (VInt 1004916))))).
Proof.
  apply (rewritten_entities_not_reaccepted nat
           (Demo.fresh (Demo.fixed (inr (OVal (VInt 1004916)))))
           (Demo.fixed (inr (OVal (VInt 1004916)))) 1004916
           None None None None [VDict Demo.event]
           (VList [VDict (<["name" := VStr "Event"]>
                          (<["isSearchable" := VBool true]>
                          (<["is_applicable" := VBool true]> ∅)))])
           eq_refl ltac:(discriminate) eq_refl).
Defined.

(** ** Exceptions of the connection *)

(** X11. No method catches what the connection raises.  When the connection
    raises [e] on the very call that the method makes, [get_codes],
    [get_code_types], [get_code_supported_entities], [delete_code],
    [update_code] and [create_code] raise [e]; the world is as the
    connection left it, and the log has the opening message of the method
    and nothing after it: no success message is logged. *)
Theorem connection_errors_pass_through (W : Type) (st : state W)
    (conn : Connection W) (e : exn) (w : W) (code_id : Z)
    (name parent_code_id description code_type supported_entities
       page_size : option value) (se : value) :
  st_self st !! "connection" = Some conn →
  let failed (r : result pyobj * state W) (opening : list fragment) :=
    r.1 = inl e ∧ st_world r.2 = w ∧
    st_log r.2 = st_log st ++ [info opening] in
  (answer conn
     (Call "request_paginate" (uri conn +:+ "codes") None None
        (Some (<["$top" := default (VInt 200) page_size]>
              (<["codeType" := default VNone code_type]>
              (<["parentCodeId" := default VNone parent_code_id]>
              (<["supportedEntities" := default VNone supported_entities]>
              (<["name" := default VNone name]> ∅)))))) None)
     (st_world st) = (inl e, w) →
   failed (get_codes name supported_entities parent_code_id code_type
             page_size st) [FText "Getting codes..."]) ∧
  (answer conn (Call "request" (uri conn +:+ "codeTypes") None None None
                  (Some true)) (st_world st) = (inl e, w) →
   failed (get_code_types st) [FText "Getting code types..."]) ∧
  (answer conn (Call "request" (uri conn +:+ "codes/supportedEntities") None
                  None None (Some true)) (st_world st) = (inl e, w) →
   failed (get_code_supported_entities st)
     [FText "Getting code supported entities..."]) ∧
  (answer conn (Call "request" (uri conn +:+ "codes/" +:+ pretty code_id)
                  (Some "DELETE") None None (Some true)) (st_world st)
   = (inl e, w) →
   failed (delete_code code_id st)
     [FText "Deleting code "; FInt code_id; FText "..."]) ∧
  ((truthy (default VNone supported_entities) = true →
    entities (default VNone supported_entities) = inr se) →
   ∃ put_data : gmap string value,
     sent_by (update_code code_id name parent_code_id description code_type
                supported_entities) st
     = [Call "request" (uri conn +:+ "codes/" +:+ pretty code_id)
          (Some "PUT") (Some put_data) None None] ∧
     (answer conn (Call "request" (uri conn +:+ "codes/" +:+ pretty code_id)
                     (Some "PUT") (Some put_data) None None) (st_world st)
      = (inl e, w) →
      failed (update_code code_id name parent_code_id description code_type
                supported_entities st)
        [FText "Updating code "; FInt code_id; FText "..."])) ∧
  (truthy (default VNone supported_entities) = true →
   entities (default VNone supported_entities) = inr se →
   answer conn
     (Call "request" (uri conn +:+ "codes") (Some "POST")
        (Some (<["description" := default VNone description]>
              (<["supportedEntities" := se]>
              (<["codeType" := default (VStr "SourceCode") code_type]>
              (<["name" := default VNone name]>
              (<["parentCodeId" := default VNone parent_code_id]> ∅))))))
        None None) (st_world st) = (inl e, w) →
   failed (create_code name parent_code_id description code_type
             supported_entities st)
     [FText "Creating code "; FVal (default VNone name); FText "..."]).
Proof.
  intros Hconn failed. unfold failed.
  split. { intros Hans. unfold get_codes. run_method Hconn. by rewrite Hans. }
  split.
  { intros Hans. unfold get_code_types. run_method Hconn. by rewrite Hans. }
  split.
  { intros Hans. unfold get_code_supported_entities. run_method Hconn.
    by rewrite Hans. }
  split.
  { intros Hans. unfold delete_code. run_method Hconn. by rewrite Hans. }
  split.
  - intros Hse. unfold sent_by, update_code. cbv zeta.
    destruct (truthy (default VNone name)),
             (truthy (default VNone parent_code_id)),
             (truthy (default VNone code_type)),
             (truthy (default VNone description)),
             (truthy (default VNone supported_entities));
      try (rewrite (Hse eq_refl)); clear Hse;
      (eexists; split;
       [run_method Hconn; case_answer conn; reflexivity
       |intros Hans; run_method Hconn; by rewrite Hans]).
  - intros Htruthy Hse Hans. unfold create_code. cbv zeta. rewrite Htruthy.
    run_method Hconn. rewrite Hse. run_method Hconn. by rewrite Hans.
Qed.

Lemma connection_errors_pass_through_witness :
  (delete_code 999 (Demo.fresh (Demo.fixed (inl Demo.not_found)))).1
  = inl (HTTPError 404 "Not Found") ∧
  st_log (delete_code 999 (Demo.fresh (Demo.fixed (inl Demo.not_found)))).2
  = [info [FText "Deleting code "; FInt 999; FText "..."]].
Proof.
  destruct (connection_errors_pass_through nat
              (Demo.fresh (Demo.fixed (inl Demo.not_found)))
              (Demo.fixed (inl Demo.not_found)) Demo.not_found 1%nat 999
              None None None None None None VNone eq_refl)
    as (_ & _ & _ & Hdelete & _).
  destruct (Hdelete eq_refl) as (Hres & _ & Hlog).
  split; [exact Hres|exact Hlog].
Defined.

(** ** The item end point *)

Lemma item_url_inj (base : string) (a b : Z) :
  base +:+ "codes/" +:+ pretty a = base +:+ "codes/" +:+ pretty b → a = b.
Proof.
  intros Heq. apply (inj (String.append base)) in Heq.
  apply (inj (String.append "codes/")) in Heq.
  by apply (inj pretty) in Heq.
Qed.

(** X12. [get_code], [update_code] and [delete_code] address the same URL
    for the same identifier, and two different identifiers never give the
    same URL. *)
Theorem item_urls_distinct (W : Type) (st : state W) (conn : Connection W)
    (code_id code_id' : Z)
    (name parent_code_id description code_type supported_entities : option value)
    (se : value) :
  st_self st !! "connection" = Some conn →
  (truthy (default VNone supported_entities) = true →
   entities (default VNone supported_entities) = inr se) →
  c_url <$> sent_by (delete_code code_id) st
  = c_url <$> sent_by (get_code code_id) st ∧
  c_url <$> sent_by (update_code code_id name parent_code_id description
                       code_type supported_entities) st
  = c_url <$> sent_by (get_code code_id) st ∧
  (code_id ≠ code_id' →
   c_url <$> sent_by (get_code code_id) st
   ≠ c_url <$> sent_by (get_code code_id') st).
Proof.
  intros Hconn Hse.
  destruct (update_code_sent st conn code_id name parent_code_id description
              code_type supported_entities se Hconn Hse)
    as (put_data & -> & _).
  rewrite (delete_code_sent st conn), !(get_code_sent st conn) by done.
  split_and!; [done..|].
  intros Hne [= Heq]. by apply Hne, (item_url_inj (uri conn)).
Qed.

Lemma item_urls_distinct_witness :
  c_url <$> sent_by (get_code 7)
              (Demo.fresh (Demo.fixed (inr (OVal (VInt 1004916)))))
  ≠ c_url <$> sent_by (get_code 17)
                (Demo.fresh (Demo.fixed (inr (OVal (VInt 1004916))))).
Proof.
  destruct (item_urls_distinct nat
              (Demo.fresh (Demo.fixed (inr (OVal (VInt 1004916)))))
              (Demo.fixed (inr (OVal (VInt 1004916)))) 7 17
              None None None None None VNone eq_refl ltac:(discriminate))
    as (_ & _ & Hne).
  apply Hne. discriminate.
Defined.

(** ** Construction *)

(** X13. After [__init__] the methods talk to the connection it was given,
    whatever attributes the object had before: [get_code] sends its request
    to that connection's base URI.  [__init__] neither makes a call nor
    logs, and running it again replaces the connection: the last one wins. *)
Theorem init_sets_the_connection (W : Type) (st : state W)
    (conn conn' : Connection W) (code_id : Z) :
  sent_by (get_code code_id) (__init__ conn st).2
  = [Call "request" (uri conn +:+ "codes/" +:+ pretty code_id)
       None None None None] ∧
  st_world (__init__ conn st).2 = st_world st ∧
  st_sent (__init__ conn st).2 = st_sent st ∧
  st_log (__init__ conn st).2 = st_log st ∧
  __init__ conn (__init__ conn' st).2 = __init__ conn st.
Proof.
  split_and!; try reflexivity.
  - apply get_code_sent. simpl. apply lookup_insert_eq.
  - unfold __init__, setattr. simpl. by rewrite insert_insert_eq.
Qed.
